(** * The packaging manifest of [ply_processor]

    The repository holds one Python source file, [setup.py]: an import
    from [setuptools] followed by one call of [setup] with keyword
    arguments.  This development embeds that file as a Python syntax
    tree, gives the fragment of Python it is written in an evaluator
    (name binding by [from ... import], expression statements, calls
    with positional and keyword arguments, string and list literals),
    and proves what the manifest declares. *)

From Stdlib Require Import Ascii String.
From stdpp Require Import base option list strings gmap.

Local Open Scope string_scope.
Local Set Warnings "-register-all".

(** ** Python syntax, after the [ast] module *)

Module Ast.

Inductive constant :=
| CNone
| CBool (b : bool)
| CInt (n : Z)
| CStr (s : string).

Inductive expr :=
| Constant (value : constant)
| Name (id : string)
| Attribute (value : expr) (attr : string)
| Subscript (value : expr) (slice : expr)
| Call (func : expr) (args : list expr) (keywords : list keyword)
| List (elts : list expr)
| Tuple (elts : list expr)
| Dict (keys : list expr) (values : list expr)
| Lambda (params : list string) (body : expr)
with keyword :=
| Keyword (arg : string) (value : expr).

Inductive stmt :=
| Import (names : list string)
| ImportFrom (module : string) (names : list string)
| Expr (value : expr)
| Assign (target : string) (value : expr)
| Pass
| Return (value : expr)
| FunctionDef (name : string) (params : list string) (body : list stmt)
| ClassDef (name : string) (bases : list expr) (body : list stmt)
| If (test : expr) (body : list stmt) (orelse : list stmt)
| For (target : string) (iter : expr) (body : list stmt)
| While (test : expr) (body : list stmt)
| With (context : expr) (body : list stmt)
| Try (body : list stmt) (handlers : list stmt).

Definition module := list stmt.

Definition keyword_arg (k : keyword) : string :=
  match k with Keyword a _ => a end.

Definition keyword_value (k : keyword) : expr :=
  match k with Keyword _ v => v end.

End Ast.

Import Ast.

(** ** The source file

    [setup.py], node for node. *)

Definition setup_py : module :=
  [ ImportFrom "setuptools" ["setup"; "find_packages"];
    Expr (Call (Name "setup") []
      [ Keyword "name" (Constant (CStr "ply_processor"));
        Keyword "version" (Constant (CStr "0.1.0"));
        Keyword "packages" (Call (Name "find_packages") [] []);
        Keyword "install_requires" (List
          [ Constant (CStr "open3d==0.18.0");
            Constant (CStr "numpy==1.26.4");
            Constant (CStr "matplotlib==3.9.2");
            Constant (CStr "matplotlib-inline==0.1.7") ]);
        Keyword "author" (Constant (CStr "Chen Xu"));
        Keyword "author_email" (Constant (CStr "cxu.self@gmail.com"));
        Keyword "description" (Constant (CStr
          "A module for processing point clouds with plane fitting and bounding boxes"));
        Keyword "classifiers" (List
          [ Constant (CStr "Programming Language :: Python :: 3");
            Constant (CStr "Operating System :: OS Independent") ]);
        Keyword "python_requires" (Constant (CStr ">=3.6")) ]) ].

(** The source tree: one file. *)
Definition repository : list (string * module) :=
  [ ("setup.py", setup_py) ].

(** ** Values, events and the evaluation state *)

Inductive value :=
| VNone
| VBool (b : bool)
| VInt (n : Z)
| VStr (s : string)
| VList (elts : list value)
| VTuple (elts : list value)
| VFunction (module : string) (name : string).

(** Keyword arguments reach the callee in source order. *)
Definition kwargs := list (string * value).

Inductive event :=
| EvImport (module : string) (names : list string)
| EvCall (module : string) (name : string) (args : list value) (kw : kwargs).

(** [NotInGlobals] stands for a name the module never bound (the
    builtins scope is not modelled); [Unsupported] for syntax outside
    the fragment the evaluator covers. *)
Inductive error :=
| NotInGlobals (id : string)
| TypeError (what : string)
| SyntaxError (what : string)
| Unsupported (what : string).

Record state := State {
  globals : gmap string value;
  trace : list event
}.

Definition initial : state := State ∅ [].

(** [setuptools] is not part of the repository.  Of its two functions
    the manifest uses, [setup] is the sink: its call is recorded with
    its arguments.  [find_packages] looks at the directory the build
    runs in; the host gives its result. *)
Record Host := {
  find_packages : list value -> kwargs -> value
}.

Definition setuptools_exports : list string := ["setup"; "find_packages"].

(** ** A state and error monad *)

Definition exec (A : Type) : Type := state -> error + (A * state).

Definition raise {A} (e : error) : exec A := fun _ => inl e.

#[export] Instance exec_ret : MRet exec := fun A a st => inr (a, st).

#[export] Instance exec_bind : MBind exec := fun A B f m st =>
  match m st with
  | inl e => inl e
  | inr (a, st') => f a st'
  end.

Definition emit (ev : event) : exec unit :=
  fun st => inr (tt, State (globals st) (trace st ++ [ev])).

Definition load (id : string) : exec value :=
  fun st => match globals st !! id with
            | Some v => inr (v, st)
            | None => inl (NotInGlobals id)
            end.

Definition store (id : string) (v : value) : exec unit :=
  fun st => inr (tt, State (<[id := v]> (globals st)) (trace st)).

(** ** The evaluator *)

Definition value_of_constant (c : constant) : value :=
  match c with
  | CNone => VNone
  | CBool b => VBool b
  | CInt n => VInt n
  | CStr s => VStr s
  end.

(** Python's truth value of an object. *)
Definition truthy (v : value) : bool :=
  match v with
  | VNone => false
  | VBool b => b
  | VInt n => negb (Z.eqb n 0)
  | VStr s => negb (Nat.eqb (String.length s) 0)
  | VList l | VTuple l => negb (Nat.eqb (length l) 0)
  | VFunction _ _ => true
  end.

Fixpoint repeated (names : list string) : bool :=
  match names with
  | [] => false
  | n :: rest => bool_decide (n ∈ rest) || repeated rest
  end.

Section Eval.

Variable host : Host.

(** Calling a function object.  [setup] returns [None]. *)
Definition call (f : value) (args : list value) (kw : kwargs) : exec value :=
  match f with
  | VFunction m n =>
      if bool_decide (m = "setuptools") then
        if bool_decide (n = "setup") then
          emit (EvCall m n args kw) ;; mret VNone
        else if bool_decide (n = "find_packages") then
          emit (EvCall m n args kw) ;; mret (find_packages host args kw)
        else raise (Unsupported n)
      else raise (Unsupported m)
  | _ => raise (TypeError "object is not callable")
  end.

(** The callee first, then the positional arguments left to right,
    then the keyword values in source order. *)
Fixpoint eval_expr (e : expr) : exec value :=
  match e with
  | Constant c => mret (value_of_constant c)
  | Name id => load id
  | List elts =>
      vs ← (fix eval_list (es : list expr) : exec (list value) :=
                  match es with
                  | [] => mret []
                  | e' :: es' =>
                      v ← eval_expr e';
                      vs ← eval_list es';
                      mret (v :: vs)
                  end) elts;
      mret (VList vs)
  | Tuple elts =>
      vs ← (fix eval_list (es : list expr) : exec (list value) :=
                  match es with
                  | [] => mret []
                  | e' :: es' =>
                      v ← eval_expr e';
                      vs ← eval_list es';
                      mret (v :: vs)
                  end) elts;
      mret (VTuple vs)
  | Call func args keywords =>
      if repeated (map keyword_arg keywords)
      then raise (SyntaxError "keyword argument repeated")
      else
        f ← eval_expr func;
        vs ← (fix eval_list (es : list expr) : exec (list value) :=
                    match es with
                    | [] => mret []
                    | e' :: es' =>
                        v ← eval_expr e';
                        vs ← eval_list es';
                        mret (v :: vs)
                    end) args;
        kw ← (fix eval_keywords (ks : list keyword) : exec kwargs :=
                    match ks with
                    | [] => mret []
                    | Keyword a e' :: ks' =>
                        v ← eval_expr e';
                        kw ← eval_keywords ks';
                        mret ((a, v) :: kw)
                    end) keywords;
        call f vs kw
  | Attribute _ _ => raise (Unsupported "Attribute")
  | Subscript _ _ => raise (Unsupported "Subscript")
  | Dict _ _ => raise (Unsupported "Dict")
  | Lambda _ _ => raise (Unsupported "Lambda")
  end.

(** [from m import a, b]: each name is bound in the module's globals
    to the attribute of that name. *)
Fixpoint bind_imports (m : string) (names : list string) : exec unit :=
  match names with
  | [] => mret tt
  | n :: rest =>
      if bool_decide (n ∈ setuptools_exports)
      then store n (VFunction m n) ;; bind_imports m rest
      else raise (Unsupported n)
  end.

Fixpoint exec_stmt (s : stmt) : exec unit :=
  match s with
  | ImportFrom m names =>
      if bool_decide (m = "setuptools")
      then emit (EvImport m names) ;; bind_imports m names
      else raise (Unsupported m)
  | Expr e => eval_expr e ;; mret tt
  | Assign x e => v ← eval_expr e; store x v
  | Pass => mret tt
  | If test body orelse =>
      v ← eval_expr test;
      (fix exec_block (ss : list stmt) : exec unit :=
         match ss with
         | [] => mret tt
         | s' :: ss' => exec_stmt s' ;; exec_block ss'
         end) (if truthy v then body else orelse)
  | Import _ => raise (Unsupported "Import")
  | Return _ => raise (SyntaxError "return outside function")
  | FunctionDef _ _ _ => raise (Unsupported "FunctionDef")
  | ClassDef _ _ _ => raise (Unsupported "ClassDef")
  | For _ _ _ => raise (Unsupported "For")
  | While _ _ => raise (Unsupported "While")
  | With _ _ => raise (Unsupported "With")
  | Try _ _ => raise (Unsupported "Try")
  end.

Fixpoint exec_module (m : module) : exec unit :=
  match m with
  | [] => mret tt
  | s :: rest => exec_stmt s ;; exec_module rest
  end.

(** One evaluation of a module, from empty globals. *)
Definition run (m : module) : error + list event :=
  match exec_module m initial with
  | inl e => inl e
  | inr (_, st) => inr (trace st)
  end.

End Eval.

(** ** Reading the trace: what the manifest declares *)

(** The calls of [setuptools.setup] in a trace, oldest first. *)
Definition setup_calls (t : list event) : list (list value * kwargs) :=
  omap (fun ev =>
          match ev with
          | EvCall m n args kw =>
              if bool_decide (m = "setuptools" ∧ n = "setup")
              then Some (args, kw) else None
          | EvImport _ _ => None
          end) t.

(** Evaluated on [host], the manifest ends without an error and has
    called [setup] once, with no positional argument and the keyword
    arguments [kw]. *)
Definition declares (host : Host) (kw : kwargs) : Prop :=
  exists t, run host setup_py = inr t /\ setup_calls t = [([], kw)].

(** The value passed for keyword [k]. *)
Fixpoint kwarg (k : string) (kw : kwargs) : option value :=
  match kw with
  | [] => None
  | (k', v) :: rest => if bool_decide (k = k') then Some v else kwarg k rest
  end.

Definition keys (kw : kwargs) : list string := map fst kw.

(** The keyword arguments without the one named [k]. *)
Definition without (k : string) (kw : kwargs) : kwargs :=
  filter (fun p => fst p ≠ k) kw.

(** ** Reading the syntax tree *)

Fixpoint subexprs (e : expr) : list expr :=
  e :: match e with
       | Constant _ | Name _ => []
       | Attribute v _ => subexprs v
       | Subscript v s => subexprs v ++ subexprs s
       | Call f args kws =>
           subexprs f ++ flat_map subexprs args
           ++ flat_map (fun k => match k with Keyword _ v => subexprs v end) kws
       | List elts | Tuple elts => flat_map subexprs elts
       | Dict ks vs => flat_map subexprs ks ++ flat_map subexprs vs
       | Lambda _ b => subexprs b
       end.

Fixpoint substmts (s : stmt) : list stmt :=
  s :: match s with
       | FunctionDef _ _ b | For _ _ b | While _ b | With _ b =>
           flat_map substmts b
       | ClassDef _ _ b => flat_map substmts b
       | If _ b o | Try b o => flat_map substmts b ++ flat_map substmts o
       | Import _ | ImportFrom _ _ | Expr _ | Assign _ _ | Pass | Return _ => []
       end.

(** The expressions a statement holds itself, nested statements apart. *)
Definition stmt_exprs (s : stmt) : list expr :=
  match s with
  | Expr e | Assign _ e | Return e | If e _ _ | For _ e _ | While e _
  | With e _ => [e]
  | ClassDef _ bases _ => bases
  | Import _ | ImportFrom _ _ | Pass | FunctionDef _ _ _ | Try _ _ => []
  end.

Definition module_stmts (m : module) : list stmt := flat_map substmts m.

Definition module_exprs (m : module) : list expr :=
  flat_map subexprs (flat_map stmt_exprs (module_stmts m)).

Definition is_definition (s : stmt) : bool :=
  match s with FunctionDef _ _ _ | ClassDef _ _ _ => true | _ => false end.

Definition is_control_flow (s : stmt) : bool :=
  match s with
  | If _ _ _ | For _ _ _ | While _ _ | With _ _ | Try _ _ | Return _ => true
  | _ => false
  end.

Definition is_assignment (s : stmt) : bool :=
  match s with Assign _ _ => true | _ => false end.

(** The modules a module imports, and the names those imports bind. *)
Definition imported_modules (m : module) : list string :=
  flat_map (fun s => match s with
                     | Import ns => ns
                     | ImportFrom md _ => [md]
                     | _ => []
                     end) (module_stmts m).

Definition imported_names (m : module) : list string :=
  flat_map (fun s => match s with
                     | Import ns | ImportFrom _ ns => ns
                     | _ => []
                     end) (module_stmts m).

(** The names a module reads. *)
Definition referenced_names (m : module) : list string :=
  omap (fun e => match e with Name id => Some id | _ => None end)
       (module_exprs m).

Definition is_attribute_or_subscript (e : expr) : bool :=
  match e with Attribute _ _ | Subscript _ _ => true | _ => false end.

(** The call expressions whose callee is the plain name [f]. *)
Definition calls_of (f : string) (m : module) : list (list expr * list keyword) :=
  omap (fun e => match e with
                 | Call (Name g) args kws =>
                     if bool_decide (g = f) then Some (args, kws) else None
                 | _ => None
                 end) (module_exprs m).

(** The expression written for keyword [k]. *)
Fixpoint keyword_expr (k : string) (kws : list keyword) : option expr :=
  match kws with
  | [] => None
  | Keyword a v :: rest =>
      if bool_decide (k = a) then Some v else keyword_expr k rest
  end.

Definition is_str_literal (e : expr) : bool :=
  match e with Constant (CStr _) => true | _ => false end.

(** A string, or a list display of strings. *)
Definition is_literal (e : expr) : bool :=
  match e with
  | Constant _ => true
  | List elts => forallb is_str_literal elts
  | _ => false
  end.

Definition is_nullary_call (e : expr) : bool :=
  match e with Call (Name _) [] [] => true | _ => false end.

(** ** Requirement and version-specifier strings *)

(** How many positions of [s] the pattern [pat] occurs at. *)
Fixpoint occurrences (pat s : string) : nat :=
  (if String.prefix pat s then 1 else 0)
  + match s with
    | EmptyString => 0
    | String _ s' => occurrences pat s'
    end.

(** The part of [s] before the first occurrence of [pat]; all of [s]
    when there is none. *)
Fixpoint before (pat s : string) : string :=
  if String.prefix pat s then EmptyString
  else match s with
       | EmptyString => EmptyString
       | String c s' => String c (before pat s')
       end.

(** The comparison operators of a version specifier other than [==]. *)
Definition range_operators : list string :=
  [">="; "<="; ">"; "<"; "~="; "!="].

(** The operators of a version clause, longest first. *)
Definition clause_operators : list string :=
  ["==="; "~="; "=="; "!="; "<="; ">="; "<"; ">"].

(** The operators that bound the version from above. *)
Definition upper_bounding : list string := ["==="; "~="; "=="; "<="; "<"].

Definition drop_string (n : nat) (s : string) : string :=
  String.substring n (String.length s - n) s.

(** A clause split into its operator and its version. *)
Definition parse_clause (c : string) : option (string * string) :=
  match filter (fun op => String.prefix op c = true) clause_operators with
  | op :: _ => Some (op, drop_string (String.length op) c)
  | [] => None
  end.

(** The clauses of a specifier, which separates them by commas. *)
Fixpoint clauses (s : string) : list string :=
  match s with
  | EmptyString => [EmptyString]
  | String c s' =>
      if Ascii.eqb c ","%char then EmptyString :: clauses s'
      else match clauses s' with
           | [] => [String c EmptyString]
           | w :: ws => String c w :: ws
           end
  end.

(** The package name of an exact pin. *)
Definition requirement_name (r : string) : string := before "==" r.

(** The [setup] keywords that declare dependencies. *)
Definition dependency_keywords : list string :=
  ["install_requires"; "extras_require"; "setup_requires"; "tests_require"].

(** The [setup] keywords that declare commands, scripts and data files. *)
Definition interface_keywords : list string :=
  ["entry_points"; "scripts"; "console_scripts"; "package_data"; "data_files"].

(** Two build directories: one with no package in it and one that
    holds the package [ply_processor]. *)
Definition bare_directory : Host :=
  {| find_packages := fun _ _ => VList [] |}.

Definition package_directory : Host :=
  {| find_packages := fun _ _ => VList [VStr "ply_processor"] |}.


(** The part of [s] after the first occurrence of [pat]; empty when
    there is none. *)
Fixpoint after (pat s : string) : string :=
  if String.prefix pat s then drop_string (String.length pat) s
  else match s with
       | EmptyString => EmptyString
       | String _ s' => after pat s'
       end.

(** The version of an exact pin. *)
Definition requirement_version (r : string) : string := after "==" r.

Fixpoint string_forall (p : ascii -> bool) (s : string) : bool :=
  match s with
  | EmptyString => true
  | String c s' => p c && string_forall p s'
  end.

Definition is_digit (c : ascii) : bool :=
  let n := nat_of_ascii c in (48 <=? n)%nat && (n <=? 57)%nat.

Definition is_lower (c : ascii) : bool :=
  let n := nat_of_ascii c in (97 <=? n)%nat && (n <=? 122)%nat.

(** The characters of the package names written in the manifest:
    lower-case letters, digits and the hyphen. *)
Definition is_name_char (c : ascii) : bool :=
  is_lower c || is_digit c || Ascii.eqb c "-"%char.

(** The characters of a plain release number: digits and dots. *)
Definition is_release_char (c : ascii) : bool :=
  is_digit c || Ascii.eqb c "."%char.

(** * Properties *)

(** ** The evaluator on literals *)

Lemma bind_apply {A B} (m : exec A) (f : A -> exec B) st :
  (m ≫= f) st = match m st with
                | inl e => inl e
                | inr (a, st') => f a st'
                end.
Proof. reflexivity. Qed.

Lemma mret_apply {A} (a : A) st : (mret a : exec A) st = inr (a, st).
Proof. reflexivity. Qed.

Lemma eval_constant host c st :
  eval_expr host (Constant c) st = inr (value_of_constant c, st).
Proof. reflexivity. Qed.

(** A list display of string literals evaluates to the list of those
    strings, whatever the host, and leaves the state as it was. *)
Lemma eval_str_list host (l : list string) st :
  eval_expr host (List (map (fun s => Constant (CStr s)) l)) st
  = inr (VList (map VStr l), st).
Proof.
  assert (Hgo : forall l : list string,
    (fix eval_list (es : list expr) : exec (list value) :=
       match es with
       | [] => mret []
       | e' :: es' =>
           v ← eval_expr host e'; vs ← eval_list es'; mret (v :: vs)
       end) (map (fun s => Constant (CStr s)) l) st
    = inr (map VStr l, st)).
  { clear l. induction l as [|s l IH]; [reflexivity|].
    cbn [map]. rewrite bind_apply, eval_constant, bind_apply, IH.
    reflexivity. }
  cbn [eval_expr]. rewrite bind_apply, Hgo. reflexivity.
Qed.

(** Events are only ever appended. *)
Lemma emit_trace ev st :
  emit ev st = inr (tt, State (globals st) (trace st ++ [ev])).
Proof. reflexivity. Qed.

(** ** One evaluation of [setup.py] *)

Lemma run_setup_py host :
  run host setup_py = inr
    [ EvImport "setuptools" ["setup"; "find_packages"];
      EvCall "setuptools" "find_packages" [] [];
      EvCall "setuptools" "setup" []
        [ ("name", VStr "ply_processor");
          ("version", VStr "0.1.0");
          ("packages", find_packages host [] []);
          ("install_requires",
            VList [ VStr "open3d==0.18.0"; VStr "numpy==1.26.4";
                    VStr "matplotlib==3.9.2";
                    VStr "matplotlib-inline==0.1.7" ]);
          ("author", VStr "Chen Xu");
          ("author_email", VStr "cxu.self@gmail.com");
          ("description", VStr
            "A module for processing point clouds with plane fitting and bounding boxes");
          ("classifiers",
            VList [ VStr "Programming Language :: Python :: 3";
                    VStr "Operating System :: OS Independent" ]);
          ("python_requires", VStr ">=3.6") ] ].
Proof. vm_compute. reflexivity. Qed.

(** For one host the keyword arguments are determined. *)
Lemma declares_functional host kw1 kw2 :
  declares host kw1 -> declares host kw2 -> kw1 = kw2.
Proof.
  intros (t1 & Hr1 & Hc1) (t2 & Hr2 & Hc2).
  rewrite Hr1 in Hr2. injection Hr2 as <-.
  rewrite Hc1 in Hc2. by injection Hc2.
Qed.

Local Ltac evaluated :=
  eexists; split;
  [ eexists; split; [ apply run_setup_py | reflexivity ] | ].

(** ** What the manifest declares *)

(** C1: on every host the manifest calls [setup] with
    [install_requires] equal to the four pinned requirements
    open3d==0.18.0, numpy==1.26.4, matplotlib==3.9.2 and
    matplotlib-inline==0.1.7, in that order, and passes no other
    keyword that declares dependencies. *)
Theorem install_requires_exact (host : Host) :
  exists kw,
    declares host kw
    /\ kwarg "install_requires" kw
       = Some (VList [ VStr "open3d==0.18.0"; VStr "numpy==1.26.4";
                       VStr "matplotlib==3.9.2";
                       VStr "matplotlib-inline==0.1.7" ])
    /\ filter (fun k => k ∈ dependency_keywords) (keys kw)
       = ["install_requires"].
Proof. evaluated. split; vm_compute; reflexivity. Qed.

(** C2: the manifest declares the name [ply_processor] and the
    version [0.1.0]. *)
Theorem name_and_version (host : Host) :
  exists kw,
    declares host kw
    /\ kwarg "name" kw = Some (VStr "ply_processor")
    /\ kwarg "version" kw = Some (VStr "0.1.0").
Proof. evaluated. split; reflexivity. Qed.

(** C3: [python_requires] is the string [>=3.6]; it is passed once,
    it is one clause, a lower bound on version 3.6, and no clause of
    it bounds the version from above. *)
Theorem python_requires_lower_bound_only (host : Host) :
  exists kw spec,
    declares host kw
    /\ kwarg "python_requires" kw = Some (VStr spec)
    /\ spec = ">=3.6"
    /\ filter (fun k => k = "python_requires") (keys kw) = ["python_requires"]
    /\ map parse_clause (clauses spec) = [Some (">=", "3.6")]
    /\ Forall (fun c => exists op v,
                 parse_clause c = Some (op, v) /\ op ∉ upper_bounding)
              (clauses spec).
Proof.
  eexists. exists ">=3.6". split.
  { eexists. split; [apply run_setup_py | reflexivity]. }
  repeat split; try (vm_compute; reflexivity).
  constructor; [|constructor].
  exists ">=", "3.6". split; [reflexivity|].
  apply (bool_decide_unpack _). vm_compute. exact I.
Qed.

(** C4: the classifiers are the two generic tags, Python 3 and OS
    independent, and nothing else. *)
Theorem classifiers_exact (host : Host) :
  exists kw,
    declares host kw
    /\ kwarg "classifiers" kw
       = Some (VList [ VStr "Programming Language :: Python :: 3";
                       VStr "Operating System :: OS Independent" ]).
Proof. evaluated. reflexivity. Qed.

(** C5: the [setup] call has none of the keywords [entry_points],
    [scripts], [console_scripts], [package_data], [data_files], in the
    source and in the evaluated call alike; the module imports from
    [setuptools] only, reads no name but [setup] and [find_packages],
    has no attribute access or subscript (so no environment lookup and
    no file handle), and its evaluation does nothing but the import
    and the two calls. *)
Theorem no_external_interface (host : Host) :
  exists kw kws,
    declares host kw
    /\ calls_of "setup" setup_py = [([], kws)]
    /\ filter (fun k => k ∈ interface_keywords) (map keyword_arg kws) = []
    /\ filter (fun k => k ∈ interface_keywords) (keys kw) = []
    /\ imported_modules setup_py = ["setuptools"]
    /\ referenced_names setup_py = ["setup"; "find_packages"]
    /\ filter is_attribute_or_subscript (module_exprs setup_py) = []
    /\ run host setup_py = inr
         [ EvImport "setuptools" ["setup"; "find_packages"];
           EvCall "setuptools" "find_packages" [] [];
           EvCall "setuptools" "setup" [] kw ].
Proof.
  eexists. eexists. split.
  { eexists. split; [apply run_setup_py | reflexivity]. }
  split; [reflexivity|].
  repeat split; try (vm_compute; reflexivity).
Qed.

(** C6: the source tree is the one file [setup.py]; it has no function
    or class definition, no control-flow statement and no assignment;
    it is an import followed by one expression statement, the call of
    [setup], whose every argument is a string literal, a list display
    of string literals, or the call [find_packages()]; the only list
    displays of the file are arguments of that call. *)
Theorem manifest_has_no_logic :
  map fst repository = ["setup.py"]
  /\ map snd repository = [setup_py]
  /\ filter is_definition (module_stmts setup_py) = []
  /\ filter is_control_flow (module_stmts setup_py) = []
  /\ filter is_assignment (module_stmts setup_py) = []
  /\ exists kws,
       setup_py = [ ImportFrom "setuptools" ["setup"; "find_packages"];
                    Expr (Call (Name "setup") [] kws) ]
       /\ calls_of "setup" setup_py = [([], kws)]
       /\ forallb (fun k => is_literal (keyword_value k)
                            || is_nullary_call (keyword_value k)) kws = true
       /\ filter (fun e => negb (is_literal e) && negb (is_nullary_call e))
                 (module_exprs setup_py)
          = [Call (Name "setup") [] kws; Name "setup"; Name "find_packages"].
Proof.
  repeat split; try reflexivity.
  eexists. split; [reflexivity|].
  repeat split; vm_compute; reflexivity.
Qed.

(** C7: the expression written for [packages] is the call
    [find_packages()] with no argument, a call of the function imported
    from [setuptools]; the value passed is what that call returns on
    the host, so any value is passed on some host. *)
Theorem packages_discovered (host : Host) :
  exists kw kws,
    declares host kw
    /\ calls_of "setup" setup_py = [([], kws)]
    /\ keyword_expr "packages" kws = Some (Call (Name "find_packages") [] [])
    /\ kwarg "packages" kw = Some (find_packages host [] [])
    /\ (exists t, run host setup_py = inr t
                  /\ EvCall "setuptools" "find_packages" [] [] ∈ t)
    /\ forall v, exists host' kw',
         declares host' kw' /\ kwarg "packages" kw' = Some v.
Proof.
  eexists. eexists. split.
  { eexists. split; [apply run_setup_py | reflexivity]. }
  split; [reflexivity|].
  split; [reflexivity|].
  split; [reflexivity|].
  split.
  { eexists. split; [apply run_setup_py|]. set_solver. }
  intros v. exists {| find_packages := fun _ _ => v |}.
  evaluated. reflexivity.
Qed.

(** C8, as the code has it: every evaluation ends without an error
    after calling [setup] once; two evaluations pass the same keywords
    with the same values, [packages] apart, which is what
    [find_packages()] returned in each; where that is the same value,
    the two calls have identical arguments. *)
Theorem setup_once_same_up_to_packages (host1 host2 : Host) :
  exists kw1 kw2,
    declares host1 kw1 /\ declares host2 kw2
    /\ keys kw1 = keys kw2
    /\ without "packages" kw1 = without "packages" kw2
    /\ kwarg "packages" kw1 = Some (find_packages host1 [] [])
    /\ kwarg "packages" kw2 = Some (find_packages host2 [] [])
    /\ (find_packages host1 [] [] = find_packages host2 [] [] -> kw1 = kw2).
Proof.
  eexists. eexists. split.
  { eexists. split; [apply run_setup_py | reflexivity]. }
  split.
  { eexists. split; [apply run_setup_py | reflexivity]. }
  repeat split; try (vm_compute; reflexivity).
  intros ->. reflexivity.
Qed.

Lemma setup_once_same_up_to_packages_witness :
  exists kw, declares package_directory kw
             /\ declares
                  {| find_packages := fun _ _ => VList [VStr "ply_processor"] |}
                  kw.
Proof.
  destruct (setup_once_same_up_to_packages package_directory
              {| find_packages := fun _ _ => VList [VStr "ply_processor"] |})
    as (kw1 & kw2 & H1 & H2 & _ & _ & _ & _ & Heq).
  exists kw1. split; [exact H1|].
  rewrite (Heq eq_refl). exact H2.
Defined.

(** C8, as stated, fails: evaluated in a directory with no package and
    in one that holds [ply_processor], the manifest calls [setup] with
    different arguments. *)
Lemma setup_arguments_differ :
  exists kw1 kw2,
    declares bare_directory kw1
    /\ declares package_directory kw2
    /\ kwarg "packages" kw1 = Some (VList [])
    /\ kwarg "packages" kw2 = Some (VList [VStr "ply_processor"])
    /\ kw1 <> kw2.
Proof.
  eexists. eexists. split.
  { eexists. split; [apply run_setup_py | reflexivity]. }
  split.
  { eexists. split; [apply run_setup_py | reflexivity]. }
  split; [reflexivity|]. split; [reflexivity|].
  intros Heq. apply (f_equal (kwarg "packages")) in Heq.
  vm_compute in Heq. discriminate Heq.
Qed.

(** C9: the description is the sentence below, which has the spec's
    phrase for the domain in it. *)
Theorem description_exact (host : Host) :
  exists kw d,
    declares host kw
    /\ kwarg "description" kw = Some (VStr d)
    /\ d = "A module for processing point clouds with plane fitting and bounding boxes"
    /\ occurrences
         "processing point clouds with plane fitting and bounding boxes" d = 1.
Proof.
  eexists. eexists. split.
  { eexists. split; [apply run_setup_py | reflexivity]. }
  split; [reflexivity|]. split; vm_compute; reflexivity.
Qed.

(** C10: each of the four requirements has [==] at one position only,
    none of the operators [>=], [<=], [>], [<], [~=], [!=] anywhere,
    and the four package names differ from one another. *)
Theorem requirements_are_exact_pins (host : Host) :
  exists kw reqs,
    declares host kw
    /\ kwarg "install_requires" kw = Some (VList (map VStr reqs))
    /\ length reqs = 4
    /\ Forall (fun r => occurrences "==" r = 1
                        /\ Forall (fun op => occurrences op r = 0)
                                  range_operators) reqs
    /\ NoDup (map requirement_name reqs)
    /\ map requirement_name reqs
       = ["open3d"; "numpy"; "matplotlib"; "matplotlib-inline"].
Proof.
  eexists.
  exists ["open3d==0.18.0"; "numpy==1.26.4"; "matplotlib==3.9.2";
          "matplotlib-inline==0.1.7"].
  split.
  { eexists. split; [apply run_setup_py | reflexivity]. }
  split; [reflexivity|]. split; [reflexivity|].
  split.
  { apply (bool_decide_unpack _). vm_compute. exact I. }
  split; [|vm_compute; reflexivity].
  apply (bool_decide_unpack _). vm_compute. exact I.
Qed.

(** ** Further facts about the manifest *)

(** X1: the author is Chen Xu, with the e-mail address
    cxu.self@gmail.com. *)
Theorem author_and_email (host : Host) :
  exists kw,
    declares host kw
    /\ kwarg "author" kw = Some (VStr "Chen Xu")
    /\ kwarg "author_email" kw = Some (VStr "cxu.self@gmail.com").
Proof. evaluated. split; reflexivity. Qed.

(** X2: the [setup] call passes nine keywords, in the order written,
    none of them twice, and no positional argument; the evaluated call
    has the keywords of the source, so no url, license, long
    description or other metadata is given. *)
Theorem setup_keywords_exact (host : Host) :
  exists kw kws,
    declares host kw
    /\ calls_of "setup" setup_py = [([], kws)]
    /\ map keyword_arg kws = keys kw
    /\ keys kw = [ "name"; "version"; "packages"; "install_requires";
                   "author"; "author_email"; "description"; "classifiers";
                   "python_requires" ]
    /\ NoDup (keys kw).
Proof.
  eexists. eexists. split.
  { eexists. split; [apply run_setup_py | reflexivity]. }
  split; [reflexivity|]. split; [reflexivity|]. split; [reflexivity|].
  apply (bool_decide_unpack _). vm_compute. exact I.
Qed.


(** X4: each requirement is a package name, [==] and a version, and
    nothing more: the name is made of lower-case letters, digits and
    hyphens, the version of digits and dots, so no requirement has a
    wildcard, an extra, an environment marker or a space. *)
Theorem requirements_name_and_release (host : Host) :
  exists kw reqs,
    declares host kw
    /\ kwarg "install_requires" kw = Some (VList (map VStr reqs))
    /\ Forall (fun r =>
                 r = requirement_name r +:+ "==" +:+ requirement_version r
                 /\ requirement_name r <> EmptyString
                 /\ requirement_version r <> EmptyString
                 /\ string_forall is_name_char (requirement_name r) = true
                 /\ string_forall is_release_char (requirement_version r)
                    = true) reqs
    /\ map requirement_version reqs = ["0.18.0"; "1.26.4"; "3.9.2"; "0.1.7"].
Proof.
  eexists.
  exists ["open3d==0.18.0"; "numpy==1.26.4"; "matplotlib==3.9.2";
          "matplotlib-inline==0.1.7"].
  split.
  { eexists. split; [apply run_setup_py | reflexivity]. }
  split; [reflexivity|].
  split; [|vm_compute; reflexivity].
  repeat (apply Forall_cons_2; [repeat split; try (vm_compute; reflexivity);
                                 vm_compute; discriminate|]).
  apply Forall_nil_2.
Qed.
